(** * Portfolio screen (Expo / React Native): a shallow embedding

    The repository holds one screen, [HomeScreen], written twice: once in
    [app/(tabs)/index.tsx] (with long comments) and once in a second file
    without them.  Both are embedded below, each in a module of its own, over
    a small model of the parts of React and React Native the screen uses:
    style objects, host elements, the [useRef] hook, the ref object it
    returns and the [scrollTo] method of a scroll view. *)

From Stdlib Require Import QArith.
From stdpp Require Import gmap strings list.

Set Warnings "-register-all".
Local Open Scope Z_scope.

(** ** Style objects

    A style is a JS object literal: keys in the order written, values that
    are numbers, strings or (for [shadowOffset]) a nested object. *)

Inductive StyleValue :=
| SNum (q : Q)
| SStr (s : string)
| SObj (fields : list (string * StyleValue)).

Definition Style := list (string * StyleValue).

(** The value of a [style] prop: a style object, [false] (what
    [pressed && s] gives when [pressed] is false), or an array of those. *)
Inductive StyleProp :=
| SPStyle (s : Style)
| SPFalse
| SPArray (items : list StyleProp).

(** A project record, [interface ProjectData]. *)
Record ProjectData := {
  id : Z;
  title : string;
  description : string;
  tech : string
}.

(** ** Values, refs and the world a handler runs in *)

(** A ref object created by [useRef] is a heap address. *)
Definition loc := positive.

(** The values a [RefObject<ScrollView>.current] can hold, and what a
    handler can return.  [VScrollView i] is the mounted scroll view with
    instance number [i]. *)
Inductive JSValue :=
| VUndefined
| VNull
| VScrollView (instance : nat).

(** The argument of [scrollTo({ y, animated })]. *)
Record ScrollToOptions := { y : Z; animated : bool }.

(** One call of [scrollTo] received by a scroll view. *)
Record ScrollCall := { target : nat; options : ScrollToOptions }.

Inductive JSError :=
| TypeError (message : string).

(** [hook] is the state of the single hook slot of the screen ([None]
    before the first render); [heap] holds the [current] field of every ref
    object; [scrolls] is the trace of [scrollTo] calls, oldest first. *)
Record World := {
  hook : option loc;
  heap : gmap loc JSValue;
  scrolls : list ScrollCall
}.

Definition empty_world : World :=
  {| hook := None; heap := ∅; scrolls := [] |}.

(** ** The monad of component and handler code: state and exceptions *)

Inductive Result (A : Type) :=
| Ok (a : A) (w : World)
| Throw (e : JSError) (w : World).
Arguments Ok {A} a w.
Arguments Throw {A} e w.

Definition M (A : Type) : Type := World → Result A.

#[global] Instance M_ret : MRet M := λ A a w, Ok a w.
#[global] Instance M_bind : MBind M := λ A B f m w,
  match m w with
  | Ok a w' => f a w'
  | Throw e w' => Throw e w'
  end.

Definition throw {A : Type} (e : JSError) : M A := λ w, Throw e w.

(** ** Element trees *)

Inductive ComponentType :=
| CHeroSection
| CAboutSection
| CProjectCard
| CProjectsSection
| CContactSection.

#[global] Instance ComponentType_eq_dec : EqDecision ComponentType.
Proof. solve_decision. Defined.

(** Host elements carry the props the screen passes.  [Composite c key out]
    is the element [<c key={key} ... />] of a function component together
    with the tree [out] that component returned for its props. *)
Inductive Element :=
| View (style : Style) (children : list Element)
| Text (style : Style) (children : string)
| Pressable (style : bool → StyleProp) (onPress : M JSValue)
    (children : list Element)
| ScrollView (ref : loc) (style contentContainerStyle : Style)
    (children : list Element)
| Composite (type : ComponentType) (key : option Z) (rendered : Element).

(** [<C key={k} props />]: React calls the component and keeps its output
    under the element. *)
Definition createElement (type : ComponentType) (key : option Z)
    (component : M Element) : M Element :=
  rendered ← component; mret (Composite type key rendered).

(** ** React and React Native primitives used by the screen *)

(** [useRef(initial)]: on the first render allocate a ref object whose
    [current] is [initial]; on every later render return that same object. *)
Definition useRef (initial : JSValue) : M loc := λ w,
  match hook w with
  | Some r => Ok r w
  | None =>
      let r := fresh (dom (heap w)) in
      Ok r {| hook := Some r; heap := <[r := initial]> (heap w);
              scrolls := scrolls w |}
  end.

(** [ref.current] *)
Definition current (ref : loc) : M JSValue := λ w,
  Ok (default VUndefined (heap w !! ref)) w.

(** The world [w] after one more [scrollTo] call on instance [i]. *)
Definition with_scroll (w : World) (i : nat) (opts : ScrollToOptions) : World :=
  {| hook := hook w; heap := heap w;
     scrolls := scrolls w ++ [{| target := i; options := opts |}] |}.

(** [receiver.scrollTo(options)]: a scroll view records the call and returns
    nothing; on [null] or [undefined] the property access throws. *)
Definition scrollTo (receiver : JSValue) (opts : ScrollToOptions) : M JSValue :=
  match receiver with
  | VScrollView i => λ w, Ok VUndefined (with_scroll w i opts)
  | VNull | VUndefined =>
      throw (TypeError "Cannot read properties of null (reading 'scrollTo')")
  end.

(** [receiver?.method(...)]: short-circuits to [undefined] when the receiver
    is [null] or [undefined]. *)
Definition optional_call (receiver : JSValue) (method : JSValue → M JSValue)
    : M JSValue :=
  match receiver with
  | VNull | VUndefined => mret VUndefined
  | _ => method receiver
  end.

(** ** Reading an element tree *)

(** The composite elements of type [c], in document order. *)
Fixpoint composites (c : ComponentType) (e : Element) : list Element :=
  match e with
  | View _ cs | Pressable _ _ cs | ScrollView _ _ _ cs =>
      flat_map (composites c) cs
  | Text _ _ => []
  | Composite c' _ out =>
      (if decide (c' = c) then [e] else []) ++ composites c out
  end.

(** The strings displayed by the [Text] elements, in document order. *)
Fixpoint texts (e : Element) : list string :=
  match e with
  | View _ cs | Pressable _ _ cs | ScrollView _ _ _ cs => flat_map texts cs
  | Text _ s => [s]
  | Composite _ _ out => texts out
  end.

(** The [onPress] handlers of the [Pressable] elements, in document order. *)
Fixpoint pressables (e : Element) : list (M JSValue) :=
  match e with
  | Pressable _ h cs => h :: flat_map pressables cs
  | View _ cs | ScrollView _ _ _ cs => flat_map pressables cs
  | Text _ _ => []
  | Composite _ _ out => pressables out
  end.

(** The ref props of the [ScrollView] elements, in document order. *)
Fixpoint scroll_refs (e : Element) : list loc :=
  match e with
  | ScrollView r _ _ cs => r :: flat_map scroll_refs cs
  | View _ cs | Pressable _ _ cs => flat_map scroll_refs cs
  | Text _ _ => []
  | Composite _ _ out => scroll_refs out
  end.

Definition element_key (e : Element) : option Z :=
  match e with
  | Composite _ k _ => k
  | _ => None
  end.

Definition element_type (e : Element) : option ComponentType :=
  match e with
  | Composite c _ _ => Some c
  | _ => None
  end.

(** A press on the screen's button: the framework calls the [onPress] of
    the first [Pressable] of the tree (the screen has one). *)
Definition press (screen : Element) : M JSValue :=
  match pressables screen with
  | onPress :: _ => onPress
  | [] => mret VUndefined
  end.

(** ** The screen as written in [app/(tabs)/index.tsx] *)

Module IndexTsx.

(** [const styles = StyleSheet.create({ ... })].  The sheet is a module
    constant, initialised before any component runs, so it comes first. *)
Module styles.
Definition container : Style :=
  [ ("backgroundColor", SStr "#FAFBFC") ].
Definition content : Style :=
  [ ("paddingHorizontal", SNum 24);
    ("paddingTop", SNum 40);
    ("paddingBottom", SNum 60) ].
Definition hero : Style :=
  [ ("marginBottom", SNum 72) ].
Definition name : Style :=
  [ ("fontSize", SNum 44);
    ("fontWeight", SStr "700");
    ("color", SStr "#0F172A");
    ("letterSpacing", SNum (-0.8));
    ("lineHeight", SNum 52);
    ("marginBottom", SNum 8) ].
Definition role : Style :=
  [ ("fontSize", SNum 22);
    ("fontWeight", SStr "600");
    ("color", SStr "#475569");
    ("lineHeight", SNum 32);
    ("marginBottom", SNum 16) ].
Definition tagline : Style :=
  [ ("fontSize", SNum 17);
    ("fontWeight", SStr "400");
    ("color", SStr "#64748B");
    ("lineHeight", SNum 26);
    ("maxWidth", SNum 360);
    ("marginBottom", SNum 32) ].
Definition ctaButton : Style :=
  [ ("marginTop", SNum 8);
    ("paddingVertical", SNum 12);
    ("paddingHorizontal", SNum 28);
    ("backgroundColor", SStr "#E0E7FF");
    ("borderRadius", SNum 8);
    ("alignSelf", SStr "flex-start") ].
Definition ctaButtonPressed : Style :=
  [ ("backgroundColor", SStr "#C7D2FE") ].
Definition ctaText : Style :=
  [ ("fontSize", SNum 15);
    ("fontWeight", SStr "600");
    ("color", SStr "#3730A3");
    ("lineHeight", SNum 20) ].
Definition section : Style :=
  [ ("marginBottom", SNum 64) ].
Definition sectionTitle : Style :=
  [ ("fontSize", SNum 28);
    ("fontWeight", SStr "700");
    ("color", SStr "#0F172A");
    ("marginBottom", SNum 16);
    ("lineHeight", SNum 36) ].
Definition text : Style :=
  [ ("fontSize", SNum 16);
    ("fontWeight", SStr "400");
    ("color", SStr "#334155");
    ("lineHeight", SNum 28);
    ("marginBottom", SNum 0) ].
Definition projectsContainer : Style :=
  [ ("marginTop", SNum 28);
    ("gap", SNum 16) ].
Definition projectCard : Style :=
  [ ("backgroundColor", SStr "#FFFFFF");
    ("borderRadius", SNum 10);
    ("paddingVertical", SNum 20);
    ("paddingHorizontal", SNum 20);
    ("borderLeftWidth", SNum 4);
    ("borderLeftColor", SStr "#4F46E5");
    ("shadowColor", SStr "#000");
    ("shadowOffset", SObj [("width", SNum 0); ("height", SNum 2)]);
    ("shadowOpacity", SNum 0.04);
    ("shadowRadius", SNum 6);
    ("elevation", SNum 2) ].
Definition projectTitle : Style :=
  [ ("fontSize", SNum 18);
    ("fontWeight", SStr "700");
    ("color", SStr "#0F172A");
    ("marginBottom", SNum 12);
    ("lineHeight", SNum 26) ].
Definition projectDescription : Style :=
  [ ("fontSize", SNum 15);
    ("fontWeight", SStr "400");
    ("color", SStr "#475569");
    ("lineHeight", SNum 25);
    ("marginBottom", SNum 14) ].
Definition projectTech : Style :=
  [ ("fontSize", SNum 13);
    ("fontWeight", SStr "600");
    ("color", SStr "#4F46E5");
    ("backgroundColor", SStr "#EEF2FF");
    ("paddingVertical", SNum 6);
    ("paddingHorizontal", SNum 12);
    ("borderRadius", SNum 5);
    ("overflow", SStr "hidden");
    ("alignSelf", SStr "flex-start") ].
End styles.

(** [function HeroSection({ onViewWorkPress })] *)
Definition HeroSection (onViewWorkPress : M JSValue) : M Element :=
  mret
    (View styles.hero
       [ Text styles.name "Smriti Ray";
         Text styles.role "Aspiring Data Analyst";
         Text styles.tagline "Turning data into clear, actionable insights.";
         Pressable
           (λ pressed,
              SPArray [ SPStyle styles.ctaButton;
                        if pressed then SPStyle styles.ctaButtonPressed
                        else SPFalse ])
           onViewWorkPress
           [ Text styles.ctaText "View My Work" ] ]).

(** [function AboutSection()] *)
Definition AboutSection : M Element :=
  mret
    (View styles.section
       [ Text styles.sectionTitle "About Me";
         Text styles.text
           "I'm learning to be a data analyst by working through real problems. I find it exciting when data reveals something useful or interesting—and I focus on making sure my analysis is clear and honest rather than just impressive-looking. I'm still growing, but I'm committed to doing thoughtful work." ]).

(** [function ProjectCard({ title, description, tech })] *)
Definition ProjectCard (title description tech : string) : M Element :=
  mret
    (View styles.projectCard
       [ Text styles.projectTitle title;
         Text styles.projectDescription description;
         Text styles.projectTech tech ]).

(** [function ProjectsSection({ projects })]: [projects.map] builds one
    [<ProjectCard key={project.id} ... />] per record, left to right. *)
Definition ProjectsSection (projects : list ProjectData) : M Element :=
  cards ← mapM
    (λ project,
       createElement CProjectCard (Some (id project))
         (ProjectCard (title project) (description project) (tech project)))
    projects;
  mret
    (View styles.section
       [ Text styles.sectionTitle "Projects";
         Text styles.text
           "This portfolio shows projects I've completed through coursework and personal practice. I work with Excel, SQL, and Python to clean data and find insights. Each project taught me something new about how to approach a problem thoughtfully.";
         View styles.projectsContainer cards ]).

(** [function ContactSection()] *)
Definition ContactSection : M Element :=
  mret
    (View styles.section
       [ Text styles.sectionTitle "Get in Touch";
         Text styles.text "Email: smritiray2.sr@gmail.com";
         Text styles.text "GitHub: github.com/smritiray2-sr" ]).

(** [const projects: ProjectData[] = [...]], local to [HomeScreen] and
    rebuilt from the same literals at every render. *)
Definition projects : list ProjectData :=
  [ {| id := 1;
       title := "Sales Performance Analysis";
       description := "Analyzed quarterly sales data to identify trends and top-performing regions. Cleaned and visualized data to support business decisions.";
       tech := "Excel, SQL, Tableau" |};
    {| id := 2;
       title := "Customer Segmentation Study";
       description := "Used Python to segment customers based on purchase behavior and demographics. Created visualizations to guide marketing strategy.";
       tech := "Python, Pandas, Matplotlib" |};
    {| id := 3;
       title := "Inventory Data Cleanup Project";
       description := "Identified and fixed data quality issues in a product inventory dataset. Documented processes for ongoing data maintenance.";
       tech := "Excel, Python, SQL" |} ].

(** [const handleViewWork = () => { scrollViewRef.current?.scrollTo({ y: 450,
    animated: true }); }], a closure over the screen's ref; its block body
    has no [return], so the call evaluates to [undefined]. *)
Definition handleViewWork (scrollViewRef : loc) : M JSValue :=
  receiver ← current scrollViewRef;
  _ ← optional_call receiver
        (λ view, scrollTo view {| y := 450; animated := true |});
  mret VUndefined.

(** [export default function HomeScreen()] *)
Definition HomeScreen : M Element :=
  scrollViewRef ← useRef VNull;
  hero ← createElement CHeroSection None
           (HeroSection (handleViewWork scrollViewRef));
  about ← createElement CAboutSection None AboutSection;
  work ← createElement CProjectsSection None (ProjectsSection projects);
  contact ← createElement CContactSection None ContactSection;
  mret
    (ScrollView scrollViewRef styles.container styles.content
       [ hero; about; work; contact ]).

End IndexTsx.


(** ** The screen as written in [unnamed/part_000] *)

Module Part000.

(** [const styles = StyleSheet.create({ ... })].  The sheet is a module
    constant, initialised before any component runs, so it comes first. *)
Module styles.
Definition container : Style :=
  [ ("backgroundColor", SStr "#FAFBFC") ].
Definition content : Style :=
  [ ("paddingHorizontal", SNum 24);
    ("paddingTop", SNum 40);
    ("paddingBottom", SNum 60) ].
Definition hero : Style :=
  [ ("marginBottom", SNum 72) ].
Definition name : Style :=
  [ ("fontSize", SNum 44);
    ("fontWeight", SStr "700");
    ("color", SStr "#0F172A");
    ("letterSpacing", SNum (-0.8));
    ("lineHeight", SNum 52);
    ("marginBottom", SNum 8) ].
Definition role : Style :=
  [ ("fontSize", SNum 22);
    ("fontWeight", SStr "600");
    ("color", SStr "#475569");
    ("lineHeight", SNum 32);
    ("marginBottom", SNum 16) ].
Definition tagline : Style :=
  [ ("fontSize", SNum 17);
    ("fontWeight", SStr "400");
    ("color", SStr "#64748B");
    ("lineHeight", SNum 26);
    ("maxWidth", SNum 360);
    ("marginBottom", SNum 32) ].
Definition ctaButton : Style :=
  [ ("marginTop", SNum 8);
    ("paddingVertical", SNum 12);
    ("paddingHorizontal", SNum 28);
    ("backgroundColor", SStr "#E0E7FF");
    ("borderRadius", SNum 8);
    ("alignSelf", SStr "flex-start") ].
Definition ctaButtonPressed : Style :=
  [ ("backgroundColor", SStr "#C7D2FE") ].
Definition ctaText : Style :=
  [ ("fontSize", SNum 15);
    ("fontWeight", SStr "600");
    ("color", SStr "#3730A3");
    ("lineHeight", SNum 20) ].
Definition section : Style :=
  [ ("marginBottom", SNum 64) ].
Definition sectionTitle : Style :=
  [ ("fontSize", SNum 28);
    ("fontWeight", SStr "700");
    ("color", SStr "#0F172A");
    ("marginBottom", SNum 16);
    ("lineHeight", SNum 36) ].
Definition text : Style :=
  [ ("fontSize", SNum 16);
    ("fontWeight", SStr "400");
    ("color", SStr "#334155");
    ("lineHeight", SNum 28);
    ("marginBottom", SNum 0) ].
Definition projectsContainer : Style :=
  [ ("marginTop", SNum 28);
    ("gap", SNum 16) ].
Definition projectCard : Style :=
  [ ("backgroundColor", SStr "#FFFFFF");
    ("borderRadius", SNum 10);
    ("paddingVertical", SNum 20);
    ("paddingHorizontal", SNum 20);
    ("borderLeftWidth", SNum 4);
    ("borderLeftColor", SStr "#4F46E5");
    ("shadowColor", SStr "#000");
    ("shadowOffset", SObj [("width", SNum 0); ("height", SNum 2)]);
    ("shadowOpacity", SNum 0.04);
    ("shadowRadius", SNum 6);
    ("elevation", SNum 2) ].
Definition projectTitle : Style :=
  [ ("fontSize", SNum 18);
    ("fontWeight", SStr "700");
    ("color", SStr "#0F172A");
    ("marginBottom", SNum 12);
    ("lineHeight", SNum 26) ].
Definition projectDescription : Style :=
  [ ("fontSize", SNum 15);
    ("fontWeight", SStr "400");
    ("color", SStr "#475569");
    ("lineHeight", SNum 25);
    ("marginBottom", SNum 14) ].
Definition projectTech : Style :=
  [ ("fontSize", SNum 13);
    ("fontWeight", SStr "600");
    ("color", SStr "#4F46E5");
    ("backgroundColor", SStr "#EEF2FF");
    ("paddingVertical", SNum 6);
    ("paddingHorizontal", SNum 12);
    ("borderRadius", SNum 5);
    ("overflow", SStr "hidden");
    ("alignSelf", SStr "flex-start") ].
End styles.

(** [function HeroSection({ onViewWorkPress })] *)
Definition HeroSection (onViewWorkPress : M JSValue) : M Element :=
  mret
    (View styles.hero
       [ Text styles.name "Smriti Ray";
         Text styles.role "Aspiring Data Analyst";
         Text styles.tagline "Turning data into clear, actionable insights.";
         Pressable
           (λ pressed,
              SPArray [ SPStyle styles.ctaButton;
                        if pressed then SPStyle styles.ctaButtonPressed
                        else SPFalse ])
           onViewWorkPress
           [ Text styles.ctaText "View My Work" ] ]).

(** [function AboutSection()] *)
Definition AboutSection : M Element :=
  mret
    (View styles.section
       [ Text styles.sectionTitle "About Me";
         Text styles.text
           "I'm learning to be a data analyst by working through real problems. I find it exciting when data reveals something useful or interesting—and I focus on making sure my analysis is clear and honest rather than just impressive-looking. I'm still growing, but I'm committed to doing thoughtful work." ]).

(** [function ProjectCard({ title, description, tech })] *)
Definition ProjectCard (title description tech : string) : M Element :=
  mret
    (View styles.projectCard
       [ Text styles.projectTitle title;
         Text styles.projectDescription description;
         Text styles.projectTech tech ]).

(** [function ProjectsSection({ projects })]: [projects.map] builds one
    [<ProjectCard key={project.id} ... />] per record, left to right. *)
Definition ProjectsSection (projects : list ProjectData) : M Element :=
  cards ← mapM
    (λ project,
       createElement CProjectCard (Some (id project))
         (ProjectCard (title project) (description project) (tech project)))
    projects;
  mret
    (View styles.section
       [ Text styles.sectionTitle "Projects";
         Text styles.text
           "This portfolio shows projects I've completed through coursework and personal practice. I work with Excel, SQL, and Python to clean data and find insights. Each project taught me something new about how to approach a problem thoughtfully.";
         View styles.projectsContainer cards ]).

(** [function ContactSection()] *)
Definition ContactSection : M Element :=
  mret
    (View styles.section
       [ Text styles.sectionTitle "Get in Touch";
         Text styles.text "Email: smritiray2.sr@gmail.com";
         Text styles.text "GitHub: github.com/smritiray2-sr" ]).

(** [const projects: ProjectData[] = [...]], local to [HomeScreen] and
    rebuilt from the same literals at every render. *)
Definition projects : list ProjectData :=
  [ {| id := 1;
       title := "Sales Performance Analysis";
       description := "Analyzed quarterly sales data to identify trends and top-performing regions. Cleaned and visualized data to support business decisions.";
       tech := "Excel, SQL, Tableau" |};
    {| id := 2;
       title := "Customer Segmentation Study";
       description := "Used Python to segment customers based on purchase behavior and demographics. Created visualizations to guide marketing strategy.";
       tech := "Python, Pandas, Matplotlib" |};
    {| id := 3;
       title := "Inventory Data Cleanup Project";
       description := "Identified and fixed data quality issues in a product inventory dataset. Documented processes for ongoing data maintenance.";
       tech := "Excel, Python, SQL" |} ].

(** [const handleViewWork = () => { scrollViewRef.current?.scrollTo({ y: 450,
    animated: true }); }], a closure over the screen's ref; its block body
    has no [return], so the call evaluates to [undefined]. *)
Definition handleViewWork (scrollViewRef : loc) : M JSValue :=
  receiver ← current scrollViewRef;
  _ ← optional_call receiver
        (λ view, scrollTo view {| y := 450; animated := true |});
  mret VUndefined.

(** [export default function HomeScreen()] *)
Definition HomeScreen : M Element :=
  scrollViewRef ← useRef VNull;
  hero ← createElement CHeroSection None
           (HeroSection (handleViewWork scrollViewRef));
  about ← createElement CAboutSection None AboutSection;
  work ← createElement CProjectsSection None (ProjectsSection projects);
  contact ← createElement CContactSection None ContactSection;
  mret
    (ScrollView scrollViewRef styles.container styles.content
       [ hero; about; work; contact ]).

End Part000.


(** ** Notions used to state the properties *)

(** The world a computation leaves behind, whether it returned or threw. *)
Definition world_after {A : Type} (r : Result A) : World :=
  match r with
  | Ok _ w | Throw _ w => w
  end.

(** The project cards shown inside the Projects section of a tree. *)
Definition project_cards (screen : Element) : list Element :=
  flat_map (composites CProjectCard) (composites CProjectsSection screen).

(** The record a project card displays: its key and its three texts. *)
Definition shown_project (card : Element) : option ProjectData :=
  match element_key card, texts card with
  | Some k, [a; b; c] =>
      Some {| id := k; title := a; description := b; tech := c |}
  | _, _ => None
  end.

(** A component whose call changes nothing and returns [out] in every
    world: no state read, no state written, no exception. *)
Definition renders_purely (component : M Element) (out : Element) : Prop :=
  ∀ w, component w = Ok out w.

(** The [scrollTo] calls made between world [w] and a later world [w']. *)
Definition new_scrolls (w w' : World) : list ScrollCall :=
  drop (length (scrolls w)) (scrolls w').

(** The value a computation returned, or [d] when it threw. *)
Definition output_or {A : Type} (d : A) (r : Result A) : A :=
  match r with
  | Ok a _ => a
  | Throw _ _ => d
  end.

(** The ref object a render of the screen in world [w] works with, and the
    world that render leaves: both are read off [useRef] itself. *)
Definition render_ref (w : World) : loc :=
  output_or 1%positive (useRef VNull w).

Definition render_world (w : World) : World :=
  world_after (useRef VNull w).

(** The tree the screen returns when its hook slot already holds [r]. *)
Definition screen_tree (r : loc) : Element :=
  output_or (Text [] "")
    (IndexTsx.HomeScreen {| hook := Some r; heap := ∅; scrolls := [] |}).

(** The element [ProjectsSection] builds for one record. *)
Definition card_element (project : ProjectData) : Element :=
  output_or (Text [] "")
    (createElement CProjectCard (Some (id project))
       (IndexTsx.ProjectCard (title project) (description project)
          (tech project))
       empty_world).

(** The very first render of the screen, and the world it leaves. *)
Definition first_screen : Element :=
  output_or (Text [] "") (IndexTsx.HomeScreen empty_world).

Definition first_world : World :=
  world_after (IndexTsx.HomeScreen empty_world).

(** React's commit step for a ref prop: the mounted instance [i] is stored
    in the [current] field of ref [r]. *)
Definition attach (r : loc) (i : nat) (w : World) : World :=
  {| hook := hook w; heap := <[r := VScrollView i]> (heap w);
     scrolls := scrolls w |}.

(** The options the screen scrolls with. *)
Definition to_projects : ScrollToOptions := {| y := 450; animated := true |}.

(** The tree the Projects section returns for the records [ps]. *)
Definition projects_section_tree (ps : list ProjectData) : Element :=
  output_or (Text [] "") (IndexTsx.ProjectsSection ps empty_world).

(** ** The environment of the screen

    What happens to a mounted screen, seen from the code: React calls
    [HomeScreen] (a render), the user presses the button of the tree on
    display, and React writes the [current] field of the ref the screen
    passed to its [ScrollView] (the instance on mount, [null] on unmount;
    any value is allowed here). *)

Inductive Event :=
| EvRender
| EvPress
| EvSetCurrent (v : JSValue).

(** React's write to [current] of the screen's ref; before the first
    render there is no ref to write. *)
Definition set_current (v : JSValue) : M JSValue := λ w,
  match hook w with
  | Some r =>
      Ok VUndefined
        {| hook := hook w; heap := <[r := v]> (heap w); scrolls := scrolls w |}
  | None => Ok VUndefined w
  end.

(** One event, given the tree on display ([None] before the first render,
    when there is no button to press). *)
Definition dispatch (ev : Event) (shown : option Element) : M (option Element) :=
  match ev with
  | EvRender => t ← IndexTsx.HomeScreen; mret (Some t)
  | EvPress =>
      match shown with
      | Some t => _ ← press t; mret shown
      | None => mret shown
      end
  | EvSetCurrent v => _ ← set_current v; mret shown
  end.

(** A sequence of events, oldest first; an exception ends it. *)
Fixpoint session (evs : list Event) (shown : option Element)
    : M (option Element) :=
  match evs with
  | [] => mret shown
  | ev :: evs' => shown' ← dispatch ev shown; session evs' shown'
  end.

(** The number of presses in a sequence of events. *)
Fixpoint press_count (evs : list Event) : nat :=
  match evs with
  | [] => 0
  | EvPress :: evs' => S (press_count evs')
  | _ :: evs' => press_count evs'
  end.

(** The tree on display, if any, is the one the screen renders with the
    ref object of its hook slot. *)
Definition on_display (shown : option Element) (w : World) : Prop :=
  match shown with
  | None => True
  | Some t => ∃ r, hook w = Some r ∧ t = screen_tree r
  end.

(** Between [w] and [w'] no ref object other than the screen's own has been
    written, created or removed. *)
Definition only_own_ref_written (w w' : World) : Prop :=
  match hook w' with
  | Some r => delete r (heap w') = delete r (heap w)
  | None => heap w' = heap w
  end.

(** The one call the screen ever makes on instance [i]. *)
Definition scroll_to_projects (i : nat) : ScrollCall :=
  {| target := i; options := {| y := 450; animated := true |} |}.

(** The calls [n] presses make when the ref holds [v]. *)
Definition calls_of_presses (v : JSValue) (n : nat) : list ScrollCall :=
  match v with
  | VScrollView i => replicate n (scroll_to_projects i)
  | VNull | VUndefined => []
  end.

(** The three strings of a record, in the order a card shows them. *)
Definition card_texts (project : ProjectData) : list string :=
  [title project; description project; tech project].

(** ** How the monad runs *)

Lemma run_mret {A : Type} (a : A) (w : World) : (mret a : M A) w = Ok a w.
Proof. reflexivity. Qed.

Lemma run_mbind {A B : Type} (m : M A) (f : A → M B) (w : World) :
  (m ≫= f) w =
  match m w with
  | Ok a w' => f a w'
  | Throw e w' => Throw e w'
  end.
Proof. reflexivity. Qed.

Lemma new_scrolls_with_scroll (w : World) (i : nat) (opts : ScrollToOptions) :
  new_scrolls w (with_scroll w i opts) = [{| target := i; options := opts |}].
Proof.
  unfold new_scrolls, with_scroll; simpl.
  by rewrite drop_app_length.
Qed.

Lemma new_scrolls_same (w : World) : new_scrolls w w = [].
Proof. unfold new_scrolls. apply drop_all. Qed.

(** ** The hook *)

Lemma useRef_mounted (v : JSValue) (w : World) (r : loc) :
  hook w = Some r → useRef v w = Ok r w.
Proof. intros Hr. unfold useRef. by rewrite Hr. Qed.

Lemma useRef_hook (v : JSValue) (w : World) :
  hook (world_after (useRef v w)) = Some (output_or 1%positive (useRef v w)).
Proof. unfold useRef. destruct (hook w) eqn:Hr; simpl; done. Qed.

Lemma useRef_returns (v : JSValue) (w : World) :
  useRef v w = Ok (output_or 1%positive (useRef v w)) (world_after (useRef v w)).
Proof. unfold useRef. by destruct (hook w). Qed.

Lemma render_ref_mounted (w : World) (r : loc) :
  hook w = Some r → render_ref w = r ∧ render_world w = w.
Proof.
  intros Hr. unfold render_ref, render_world.
  by rewrite (useRef_mounted _ _ _ Hr).
Qed.

(** ** The handler *)

Lemma handleViewWork_attached (r : loc) (i : nat) (w : World) :
  heap w !! r = Some (VScrollView i) →
  IndexTsx.handleViewWork r w = Ok VUndefined (with_scroll w i to_projects).
Proof.
  intros Hcur. unfold IndexTsx.handleViewWork.
  rewrite run_mbind. unfold current at 1. rewrite Hcur. reflexivity.
Qed.

Lemma handleViewWork_nullish (r : loc) (w : World) :
  default VUndefined (heap w !! r) = VNull
  ∨ default VUndefined (heap w !! r) = VUndefined →
  IndexTsx.handleViewWork r w = Ok VUndefined w.
Proof.
  intros Hcur. unfold IndexTsx.handleViewWork.
  rewrite run_mbind. unfold current at 1.
  destruct Hcur as [-> | ->]; reflexivity.
Qed.

Lemma handleViewWork_never_throws (r : loc) (w : World) :
  ∃ w', IndexTsx.handleViewWork r w = Ok VUndefined w'.
Proof.
  destruct (heap w !! r) as [[| |i]|] eqn:Hcur.
  - exists w. apply handleViewWork_nullish. rewrite Hcur. by right.
  - exists w. apply handleViewWork_nullish. rewrite Hcur. by left.
  - eexists. by apply handleViewWork_attached.
  - exists w. apply handleViewWork_nullish. rewrite Hcur. by right.
Qed.

(** ** The sections *)

Lemma ProjectCard_run (a b c : string) (k : option Z) (w : World) :
  createElement CProjectCard k (IndexTsx.ProjectCard a b c) w =
  Ok (Composite CProjectCard k
        (View IndexTsx.styles.projectCard
           [ Text IndexTsx.styles.projectTitle a;
             Text IndexTsx.styles.projectDescription b;
             Text IndexTsx.styles.projectTech c ])) w.
Proof. reflexivity. Qed.

Lemma cards_run (ps : list ProjectData) (w : World) :
  mapM
    (λ project,
       createElement CProjectCard (Some (id project))
         (IndexTsx.ProjectCard (title project) (description project)
            (tech project)))
    ps w
  = Ok (map card_element ps) w.
Proof.
  induction ps as [|p ps IH]; [reflexivity|].
  simpl. rewrite run_mbind, ProjectCard_run, run_mbind, IH. reflexivity.
Qed.

Lemma ProjectsSection_run (ps : list ProjectData) (w : World) :
  IndexTsx.ProjectsSection ps w = Ok (projects_section_tree ps) w.
Proof.
  unfold projects_section_tree, IndexTsx.ProjectsSection.
  rewrite !run_mbind, !cards_run. reflexivity.
Qed.

Lemma composites_cards (ps : list ProjectData) :
  flat_map (composites CProjectCard) (map card_element ps) = map card_element ps.
Proof.
  induction ps as [|p ps IH]; [reflexivity|].
  simpl. by rewrite IH.
Qed.

Lemma ProjectsSection_cards (ps : list ProjectData) :
  composites CProjectCard (projects_section_tree ps) = map card_element ps.
Proof.
  unfold projects_section_tree, IndexTsx.ProjectsSection.
  rewrite run_mbind, cards_run. simpl.
  by rewrite composites_cards, !app_nil_r.
Qed.

(** ** The screen *)

Lemma HomeScreen_run (w : World) :
  IndexTsx.HomeScreen w = Ok (screen_tree (render_ref w)) (render_world w).
Proof.
  unfold IndexTsx.HomeScreen. rewrite run_mbind.
  rewrite (useRef_returns VNull w). reflexivity.
Qed.

Lemma render_world_hook (w : World) :
  hook (render_world w) = Some (render_ref w).
Proof. apply useRef_hook. Qed.

Lemma HomeScreen_mounted (w : World) (r : loc) :
  hook w = Some r → IndexTsx.HomeScreen w = Ok (screen_tree r) w.
Proof.
  intros Hr. rewrite HomeScreen_run.
  by destruct (render_ref_mounted w r Hr) as [-> ->].
Qed.

Lemma screen_tree_press (r : loc) :
  press (screen_tree r) = IndexTsx.handleViewWork r.
Proof. reflexivity. Qed.

Lemma screen_tree_cards (r : loc) :
  project_cards (screen_tree r) = map card_element IndexTsx.projects.
Proof. reflexivity. Qed.

Lemma HomeScreen_inv (w w' : World) (t : Element) (r : loc) :
  IndexTsx.HomeScreen w = Ok t w' → hook w' = Some r → t = screen_tree r.
Proof.
  rewrite HomeScreen_run. intros [= <- <-] Hr.
  rewrite render_world_hook in Hr. by injection Hr as ->.
Qed.

Lemma no_pressable_in_cards (ps : list ProjectData) :
  flat_map pressables (map card_element ps) = [].
Proof. induction ps as [|p ps IH]; [reflexivity|]. exact IH. Qed.

Lemma ProjectsSection_same : IndexTsx.ProjectsSection = Part000.ProjectsSection.
Proof. reflexivity. Qed.

(** ** The properties of the screen *)

(** C1: for every press of the hero's call-to-action button of the mounted
    screen, the screen performs exactly one [scrollTo] call on the scrollable
    container, with vertical offset 450 and [animated] true; the handler
    takes no argument and its value is [undefined].  A button can be pressed
    only once the screen is mounted, and from mount on the screen's ref
    holds the container (instance [i]): that is the third hypothesis.  The
    tree pressed may come from any render of the screen, the press may
    happen in any later world. *)
Theorem press_scrolls_once (w w' w2 : World) (t : Element) (r : loc) (i : nat) :
  IndexTsx.HomeScreen w = Ok t w' →
  hook w' = Some r →
  heap w2 !! r = Some (VScrollView i) →
  press t w2 = Ok VUndefined (with_scroll w2 i {| y := 450; animated := true |})
  ∧ new_scrolls w2 (world_after (press t w2))
    = [{| target := i; options := {| y := 450; animated := true |} |}].
Proof.
  intros Hrender Hr Hcur.
  rewrite (HomeScreen_inv _ _ _ _ Hrender Hr), screen_tree_press.
  rewrite (handleViewWork_attached _ _ _ Hcur). split; [reflexivity|].
  apply new_scrolls_with_scroll.
Qed.

(** C1 at a concrete press: first render from the empty world, instance 7
    attached to the ref, then one press. *)
Lemma press_scrolls_once_witness :
  press first_screen (attach 1%positive 7 first_world)
  = Ok VUndefined
      (with_scroll (attach 1%positive 7 first_world) 7
         {| y := 450; animated := true |})
  ∧ new_scrolls (attach 1%positive 7 first_world)
      (world_after (press first_screen (attach 1%positive 7 first_world)))
    = [{| target := 7%nat; options := {| y := 450; animated := true |} |}].
Proof.
  apply (press_scrolls_once empty_world first_world
           (attach 1%positive 7 first_world) first_screen 1%positive 7%nat);
    vm_compute; reflexivity.
Defined.

(** C2: every render of the screen succeeds and its Projects section shows
    exactly three project cards, titled, in this order, Sales Performance
    Analysis, Customer Segmentation Study, Inventory Data Cleanup Project:
    the order of the hardcoded list.  No project card appears elsewhere. *)
Theorem three_project_cards (w : World) :
  ∃ t w',
    IndexTsx.HomeScreen w = Ok t w'
    ∧ length (project_cards t) = 3%nat
    ∧ map (λ card, head (texts card)) (project_cards t)
      = [ Some "Sales Performance Analysis";
          Some "Customer Segmentation Study";
          Some "Inventory Data Cleanup Project" ]
    ∧ map (λ card, head (texts card)) (project_cards t)
      = map (λ project, Some (title project)) IndexTsx.projects
    ∧ map element_key (project_cards t)
      = map (λ project, Some (id project)) IndexTsx.projects
    ∧ composites CProjectCard t = project_cards t.
Proof.
  exists (screen_tree (render_ref w)), (render_world w).
  split; [apply HomeScreen_run|].
  generalize (render_ref w) as r. intros r. vm_compute. done.
Qed.

(** C3: for every record of the fixed list, the card rendered for it (the
    card at the same position) displays exactly three texts: the record's
    title, its description and its technology tag, each string unchanged. *)
Theorem cards_show_fields_as_supplied (w : World) :
  ∃ t w',
    IndexTsx.HomeScreen w = Ok t w'
    ∧ Forall2
        (λ project card,
           texts card = [title project; description project; tech project])
        IndexTsx.projects (project_cards t).
Proof.
  exists (screen_tree (render_ref w)), (render_world w).
  split; [apply HomeScreen_run|].
  rewrite screen_tree_cards.
  apply Forall2_fmap_r, Forall_Forall2_diag, Forall_forall.
  intros p _. reflexivity.
Qed.

(** C4: when the ref's [current] is [null], the scroll-to-projects handler,
    called directly or through a press on the rendered button, returns
    [undefined] without throwing, makes no [scrollTo] call and leaves the
    whole world as it was; and in no world at all does a press throw. *)
Theorem press_with_null_ref_does_nothing (w w' w2 : World) (t : Element) (r : loc) :
  IndexTsx.HomeScreen w = Ok t w' →
  hook w' = Some r →
  heap w2 !! r = Some VNull →
  IndexTsx.handleViewWork r w2 = Ok VUndefined w2
  ∧ press t w2 = Ok VUndefined w2
  ∧ new_scrolls w2 (world_after (press t w2)) = []
  ∧ ∀ w3 : World, ∃ w4, press t w3 = Ok VUndefined w4.
Proof.
  intros Hrender Hr Hcur.
  rewrite (HomeScreen_inv _ _ _ _ Hrender Hr), screen_tree_press.
  assert (IndexTsx.handleViewWork r w2 = Ok VUndefined w2) as ->.
  { apply handleViewWork_nullish. rewrite Hcur. by left. }
  repeat split; [apply new_scrolls_same|].
  intros w3. apply handleViewWork_never_throws.
Qed.

(** C4 at a concrete press: the world left by the first render, where the
    ref still holds [null]. *)
Lemma press_with_null_ref_does_nothing_witness :
  IndexTsx.handleViewWork 1%positive first_world = Ok VUndefined first_world
  ∧ press first_screen first_world = Ok VUndefined first_world
  ∧ new_scrolls first_world (world_after (press first_screen first_world)) = []
  ∧ ∀ w3 : World, ∃ w4, press first_screen w3 = Ok VUndefined w4.
Proof.
  apply (press_with_null_ref_does_nothing empty_world first_world first_world
           first_screen 1%positive);
    vm_compute; reflexivity.
Defined.

(** C5: rendering is deterministic and the screen has one rendered state.
    Once the screen has been rendered (to [t], leaving [w']), a render of
    the same screen instance in any world [w2] whatever (any [scrollTo]
    history, ref attached or not) returns the identical tree [t] and
    changes nothing.  Trees are compared as values: the closures of two
    renders are equal as functions, not as JS object identities. *)
Theorem render_deterministic (w w' w2 : World) (t : Element) :
  IndexTsx.HomeScreen w = Ok t w' →
  hook w2 = hook w' →
  IndexTsx.HomeScreen w2 = Ok t w2.
Proof.
  rewrite HomeScreen_run. intros [= <- <-] Hsame.
  rewrite render_world_hook in Hsame.
  by apply HomeScreen_mounted.
Qed.

(** C5 at a concrete pair of renders: the first render from the empty
    world, and a render after the ref was attached and a scroll recorded. *)
Lemma render_deterministic_witness :
  IndexTsx.HomeScreen
    (with_scroll (attach 1%positive 7 first_world) 7 to_projects)
  = Ok first_screen
      (with_scroll (attach 1%positive 7 first_world) 7 to_projects).
Proof.
  apply (render_deterministic empty_world first_world
           (with_scroll (attach 1%positive 7 first_world) 7 to_projects)
           first_screen);
    vm_compute; reflexivity.
Defined.

(** C6: the identifiers of the fixed project list are pairwise distinct,
    and the list is the same at every render: in every world the screen
    renders, and the records its cards show are exactly the three records
    of the list, so nothing the program does adds, changes or removes one. *)
Theorem project_ids_unique_and_list_fixed :
  NoDup (map id IndexTsx.projects)
  ∧ ∀ w : World, ∃ t w',
      IndexTsx.HomeScreen w = Ok t w'
      ∧ map shown_project (project_cards t) = map Some IndexTsx.projects.
Proof.
  split.
  - compute_done.
  - intros w. exists (screen_tree (render_ref w)), (render_world w).
    split; [apply HomeScreen_run|].
    generalize (render_ref w) as r. intros r. vm_compute. reflexivity.
Qed.

(** C7: every render returns one [ScrollView] whose children are exactly
    four section elements, in the order Hero, About, Projects, Contact; the
    ref passed to that [ScrollView] is the ref object held in the screen's
    own hook slot, and it is the ref the button's handler scrolls through. *)
Theorem four_sections_in_order (w : World) :
  ∃ (t : Element) (w' : World) (r : loc) (hero about work contact : Element),
    IndexTsx.HomeScreen w = Ok t w'
    ∧ t = ScrollView r IndexTsx.styles.container IndexTsx.styles.content
            [ Composite CHeroSection None hero;
              Composite CAboutSection None about;
              Composite CProjectsSection None work;
              Composite CContactSection None contact ]
    ∧ hook w' = Some r
    ∧ scroll_refs t = [r]
    ∧ pressables t = [IndexTsx.handleViewWork r]
    ∧ pressables hero = [IndexTsx.handleViewWork r].
Proof.
  exists (screen_tree (render_ref w)), (render_world w), (render_ref w).
  do 4 eexists.
  split; [apply HomeScreen_run|].
  split; [reflexivity|].
  split; [apply render_world_hook|].
  repeat split.
Qed.

(** C8: each of the four sections is a pure function of its props: in
    every world it returns the same tree, never throws and leaves the world
    (hook slot, ref objects, scroll trace) untouched.  The only handler any
    section carries is the Hero's button, whose [onPress] is the callback
    it was given, passed on and not called. *)
Theorem sections_are_pure :
  (∀ onViewWorkPress : M JSValue, ∃ t,
      renders_purely (IndexTsx.HeroSection onViewWorkPress) t
      ∧ pressables t = [onViewWorkPress])
  ∧ (∃ t, renders_purely IndexTsx.AboutSection t ∧ pressables t = [])
  ∧ (∀ ps : list ProjectData, ∃ t,
      renders_purely (IndexTsx.ProjectsSection ps) t ∧ pressables t = [])
  ∧ (∃ t, renders_purely IndexTsx.ContactSection t ∧ pressables t = []).
Proof.
  split; [|split; [|split]].
  - intros cb. eexists. split; [intros w; reflexivity|reflexivity].
  - eexists. split; [intros w; reflexivity|reflexivity].
  - intros ps. exists (projects_section_tree ps). split.
    + intros w. apply ProjectsSection_run.
    + unfold projects_section_tree, IndexTsx.ProjectsSection.
      rewrite run_mbind, cards_run. simpl.
      by rewrite no_pressable_in_cards.
  - eexists. split; [intros w; reflexivity|reflexivity].
Qed.

(** C9: the two source files define the same program: the same project
    list, the same handler, the same sections and the same screen, hence
    the same rendered tree in every world and the same effect of a press
    on it in every world. *)
Theorem sources_equivalent :
  IndexTsx.projects = Part000.projects
  ∧ (∀ (r : loc) (w : World),
      IndexTsx.handleViewWork r w = Part000.handleViewWork r w)
  ∧ (∀ w : World, IndexTsx.HomeScreen w = Part000.HomeScreen w)
  ∧ (∀ w w2 : World,
      press (output_or (Text [] "") (IndexTsx.HomeScreen w)) w2
      = press (output_or (Text [] "") (Part000.HomeScreen w)) w2).
Proof. repeat split. Qed.

(** C10: for every list of project records, in either source file,
    the Projects section returns without error a tree with exactly one
    project card per record, in the order of the list, each keyed by its
    record's id and showing its three strings; for the empty list it
    returns a tree with no card. *)
Theorem one_card_per_project :
  (∀ (ps : list ProjectData) (w : World), ∃ t,
      IndexTsx.ProjectsSection ps w = Ok t w
      ∧ Part000.ProjectsSection ps w = Ok t w
      ∧ length (composites CProjectCard t) = length ps
      ∧ Forall2
          (λ project card,
             element_type card = Some CProjectCard
             ∧ element_key card = Some (id project)
             ∧ texts card
               = [title project; description project; tech project])
          ps (composites CProjectCard t))
  ∧ (∀ w : World, ∃ t,
      IndexTsx.ProjectsSection [] w = Ok t w
      ∧ Part000.ProjectsSection [] w = Ok t w
      ∧ composites CProjectCard t = []).
Proof.
  split.
  - intros ps w. exists (projects_section_tree ps).
    rewrite <- ProjectsSection_same, ProjectsSection_run, ProjectsSection_cards.
    repeat split.
    + by rewrite length_map.
    + apply Forall2_fmap_r, Forall_Forall2_diag, Forall_forall.
      intros p _. repeat split.
  - intros w. eexists. repeat split.
Qed.

(** ** The handler, case by case *)

Lemma handleViewWork_cases (r : loc) (w : World) :
  (∃ i, heap w !! r = Some (VScrollView i)
        ∧ IndexTsx.handleViewWork r w = Ok VUndefined (with_scroll w i to_projects))
  ∨ ((∀ i, heap w !! r ≠ Some (VScrollView i))
     ∧ IndexTsx.handleViewWork r w = Ok VUndefined w).
Proof.
  destruct (heap w !! r) as [[| |i]|] eqn:Hcur.
  - right. split; [done|]. apply handleViewWork_nullish. rewrite Hcur. by right.
  - right. split; [done|]. apply handleViewWork_nullish. rewrite Hcur. by left.
  - left. exists i. split; [done|]. by apply handleViewWork_attached.
  - right. split; [done|]. apply handleViewWork_nullish. rewrite Hcur. by right.
Qed.

(** ** Renders and the heap *)

Lemma render_world_scrolls (w : World) : scrolls (render_world w) = scrolls w.
Proof. unfold render_world, useRef. by destruct (hook w). Qed.

Lemma render_world_fresh (w : World) :
  hook w = None →
  heap w !! render_ref w = None
  ∧ heap (render_world w) = <[render_ref w := VNull]> (heap w).
Proof.
  intros Hr. unfold render_ref, render_world, useRef. rewrite Hr. simpl.
  split; [|done]. apply not_elem_of_dom, is_fresh.
Qed.

Lemma render_world_own_ref (w : World) : only_own_ref_written w (render_world w).
Proof.
  unfold only_own_ref_written. rewrite render_world_hook.
  destruct (hook w) as [r|] eqn:Hr.
  - by destruct (render_ref_mounted w r Hr) as [_ ->].
  - destruct (render_world_fresh w Hr) as [_ ->]. apply delete_insert_eq.
Qed.

Lemma render_world_keeps_hook (w : World) :
  hook w = None ∨ hook (render_world w) = hook w.
Proof.
  destruct (hook w) as [r|] eqn:Hr; [right|by left].
  by destruct (render_ref_mounted w r Hr) as [_ ->].
Qed.

(** ** Sessions *)

Lemma session_app (evs1 evs2 : list Event) (shown : option Element) (w : World) :
  session (evs1 ++ evs2) shown w
  = (shown' ← session evs1 shown; session evs2 shown') w.
Proof.
  revert shown w. induction evs1 as [|ev evs1 IH]; intros shown w; [done|].
  simpl. rewrite !run_mbind. destruct (dispatch ev shown w); [|done].
  rewrite IH. by rewrite run_mbind.
Qed.

Lemma only_own_ref_written_trans (w1 w2 w3 : World) :
  (hook w1 = None ∨ hook w2 = hook w1) →
  (hook w2 = None ∨ hook w3 = hook w2) →
  only_own_ref_written w1 w2 → only_own_ref_written w2 w3 →
  only_own_ref_written w1 w3.
Proof.
  unfold only_own_ref_written. intros H12 H23 F12 F23.
  destruct (hook w3) as [r3|] eqn:H3.
  - destruct (hook w2) as [r2|] eqn:H2.
    + destruct H23 as [|[= ->]]; [done|]. by rewrite F23, F12.
    + by rewrite F23, F12.
  - destruct (hook w2) as [r2|] eqn:H2.
    + by destruct H23.
    + by rewrite F23, F12.
Qed.

(** What one event does, when the tree on display is the screen's. *)
Lemma dispatch_inv (ev : Event) (shown : option Element) (w : World) :
  on_display shown w →
  ∃ shown' w' extra,
    dispatch ev shown w = Ok shown' w'
    ∧ on_display shown' w'
    ∧ scrolls w' = scrolls w ++ extra
    ∧ (length extra ≤ press_count [ev])%nat
    ∧ Forall (λ c, options c = to_projects) extra
    ∧ (hook w = None ∨ hook w' = hook w)
    ∧ only_own_ref_written w w'.
Proof.
  intros Hshown. destruct ev as [| |v].
  - exists (Some (screen_tree (render_ref w))), (render_world w), [].
    simpl. rewrite run_mbind, HomeScreen_run.
    split; [done|]. split; [eexists; split; [apply render_world_hook|done]|].
    split; [by rewrite app_nil_r, render_world_scrolls|].
    split; [done|]. split; [done|].
    split; [apply render_world_keeps_hook|apply render_world_own_ref].
  - destruct shown as [t|]; simpl.
    + destruct Hshown as (r & Hr & ->).
      rewrite run_mbind, screen_tree_press.
      destruct (handleViewWork_cases r w) as [(i & _ & ->)|[_ ->]].
      * exists (Some (screen_tree r)), (with_scroll w i to_projects),
          [{| target := i; options := to_projects |}].
        split; [done|]. split; [by exists r|].
        split; [done|]. split; [done|]. split; [by constructor|].
        split; [by right|]. unfold only_own_ref_written. simpl. by rewrite Hr.
      * exists (Some (screen_tree r)), w, [].
        split; [done|]. split; [by exists r|].
        split; [by rewrite app_nil_r|]. split; [simpl; lia|]. split; [done|].
        split; [by right|]. unfold only_own_ref_written. by rewrite Hr.
    + exists None, w, [].
      split; [done|]. split; [done|]. split; [by rewrite app_nil_r|].
      split; [simpl; lia|]. split; [done|]. split; [by right|].
      unfold only_own_ref_written. by destruct (hook w).
  - simpl. rewrite run_mbind. unfold set_current.
    destruct (hook w) as [r|] eqn:Hr.
    + eexists shown, _, []. split; [done|]. simpl.
      split.
      { destruct shown as [t|]; [|done].
        destruct Hshown as (r' & Hr' & ->). exists r'. simpl.
        split; [congruence|done]. }
      split; [by rewrite app_nil_r|]. split; [done|]. split; [done|].
      split; [by right|]. unfold only_own_ref_written. simpl.
      apply delete_insert_eq.
    + exists shown, w, []. split; [done|].
      split.
      { destruct shown as [t|]; [|done].
        destruct Hshown as (r & Hr' & _). congruence. }
      split; [by rewrite app_nil_r|]. split; [done|]. split; [done|].
      split; [by left|]. unfold only_own_ref_written. by rewrite Hr.
Qed.

Lemma session_inv (evs : list Event) (shown : option Element) (w : World) :
  on_display shown w →
  ∃ shown' w' extra,
    session evs shown w = Ok shown' w'
    ∧ on_display shown' w'
    ∧ scrolls w' = scrolls w ++ extra
    ∧ (length extra ≤ press_count evs)%nat
    ∧ Forall (λ c, options c = to_projects) extra
    ∧ (hook w = None ∨ hook w' = hook w)
    ∧ only_own_ref_written w w'.
Proof.
  revert shown w. induction evs as [|ev evs IH]; intros shown w Hshown.
  - exists shown, w, []. split; [done|]. split; [done|].
    split; [by rewrite app_nil_r|]. split; [done|]. split; [done|].
    split; [by right|]. unfold only_own_ref_written. by destruct (hook w).
  - destruct (dispatch_inv ev shown w Hshown)
      as (s1 & w1 & e1 & Hrun1 & Hs1 & Htr1 & Hlen1 & Hall1 & Hk1 & Hf1).
    destruct (IH s1 w1 Hs1)
      as (s2 & w2 & e2 & Hrun2 & Hs2 & Htr2 & Hlen2 & Hall2 & Hk2 & Hf2).
    exists s2, w2, (e1 ++ e2).
    split; [simpl; by rewrite run_mbind, Hrun1|].
    split; [done|].
    split; [by rewrite Htr2, Htr1, app_assoc|].
    split.
    { rewrite length_app. destruct ev; simpl in *; lia. }
    split; [by apply Forall_app|].
    split.
    { destruct Hk1 as [|Hk1]; [by left|]. destruct Hk2 as [Hk2|Hk2].
      - left. by rewrite <- Hk1.
      - right. by rewrite Hk2. }
    by apply (only_own_ref_written_trans w w1 w2).
Qed.

Lemma calls_of_no_press (v : JSValue) : calls_of_presses v 0 = [].
Proof. by destruct v. Qed.

Lemma calls_of_one_more_press (v : JSValue) (n : nat) :
  calls_of_presses v (S n) = calls_of_presses v 1 ++ calls_of_presses v n.
Proof. by destruct v. Qed.

(** Renders and presses, in any order, on the screen's tree. *)
Lemma renders_and_presses_run (evs : list Event) (r : loc) (w : World) :
  hook w = Some r →
  Forall (λ ev, ev = EvRender ∨ ev = EvPress) evs →
  session evs (Some (screen_tree r)) w
  = Ok (Some (screen_tree r))
      {| hook := hook w; heap := heap w;
         scrolls :=
           scrolls w
           ++ calls_of_presses (default VUndefined (heap w !! r))
                (press_count evs) |}.
Proof.
  intros Hr Hevs. revert w Hr.
  induction Hevs as [|ev evs [-> | ->] _ IH]; intros w Hr.
  - simpl press_count. rewrite calls_of_no_press, app_nil_r. by destruct w.
  - simpl. rewrite !run_mbind, (HomeScreen_mounted w r Hr), run_mret.
    apply (IH w Hr).
  - simpl press_count. rewrite calls_of_one_more_press.
    simpl session. rewrite !run_mbind, screen_tree_press.
    destruct (handleViewWork_cases r w) as [(i & Hcur & ->)|[Hcur ->]].
    + rewrite run_mret, (IH (with_scroll w i to_projects) Hr). simpl.
      rewrite Hcur. simpl. by rewrite <- app_assoc.
    + rewrite run_mret, (IH w Hr).
      destruct (heap w !! r) as [[| |i]|]; simpl; try done.
      by destruct (Hcur i).
Qed.

(** ** Further properties of the handler, the screen and the sections *)

(** X1: in every world, whatever the ref holds (a scroll view, [null],
    [undefined], or no ref object at all), the handler returns [undefined]
    without throwing, leaves the hook slot and every ref object as they
    were, keeps the earlier scroll calls and appends exactly the calls of one
    press: one call [{ y: 450, animated: true }] on the instance held by the
    ref, or none when the ref holds no instance. *)
Theorem handler_appends_calls_of_one_press (r : loc) (w : World) :
  ∃ w',
    IndexTsx.handleViewWork r w = Ok VUndefined w'
    ∧ hook w' = hook w
    ∧ heap w' = heap w
    ∧ scrolls w'
      = scrolls w ++ calls_of_presses (default VUndefined (heap w !! r)) 1.
Proof.
  destruct (handleViewWork_cases r w) as [(i & Hcur & ->)|[Hcur ->]].
  - eexists. split; [done|]. rewrite Hcur. done.
  - exists w. split; [done|]. split; [done|]. split; [done|].
    destruct (heap w !! r) as [[| |i]|]; simpl; rewrite ?app_nil_r; try done.
    by destruct (Hcur i).
Qed.

(** X2: presses act on what the ref holds when they happen, not on what it
    held earlier, and a re-render does not reset the ref.  After any
    sequence of renders, presses and ref writes, a render and a write of
    [v] to the ref, any further mix of renders and presses adds to the
    scroll trace exactly one call [{ y: 450, animated: true }] on instance
    [i] per press when [v] is the scroll view [i], and nothing when [v] is
    [null] or [undefined]; none of this throws. *)
Theorem presses_follow_latest_ref_value
    (evs evs2 : list Event) (v : JSValue) (w : World) :
  Forall (λ ev, ev = EvRender ∨ ev = EvPress) evs2 →
  ∃ s1 w1 s2 w2,
    session evs None w = Ok s1 w1
    ∧ session (evs ++ [EvRender; EvSetCurrent v] ++ evs2) None w = Ok s2 w2
    ∧ scrolls w2 = scrolls w1 ++ calls_of_presses v (press_count evs2).
Proof.
  intros Hevs2.
  destruct (session_inv evs None w I) as (s1 & w1 & e1 & Hrun & _).
  exists s1, w1. eexists _, _. split; [exact Hrun|].
  rewrite session_app, run_mbind, Hrun.
  change (session ([EvRender; EvSetCurrent v] ++ evs2) s1 w1)
    with ((shown' ← dispatch EvRender s1;
           shown'' ← dispatch (EvSetCurrent v) shown';
           session evs2 shown'') w1).
  rewrite run_mbind. simpl dispatch at 1. rewrite run_mbind, HomeScreen_run, run_mret.
  rewrite run_mbind. simpl dispatch at 1. rewrite run_mbind. unfold set_current at 1.
  rewrite render_world_hook, run_mret.
  rewrite (renders_and_presses_run evs2 (render_ref w1)) by done. simpl.
  rewrite lookup_insert_eq, render_world_scrolls. done.
Qed.

(** X2 at a concrete session: from the empty world, a press before any
    render, then render, attach instance 7, press, re-render, press. *)
Lemma presses_follow_latest_ref_value_witness :
  ∃ s1 w1 s2 w2,
    session [EvPress] None empty_world = Ok s1 w1
    ∧ session ([EvPress] ++ [EvRender; EvSetCurrent (VScrollView 7)]
               ++ [EvPress; EvRender; EvPress]) None empty_world
      = Ok s2 w2
    ∧ scrolls w2
      = scrolls w1
        ++ calls_of_presses (VScrollView 7)
             (press_count [EvPress; EvRender; EvPress]).
Proof.
  apply (presses_follow_latest_ref_value [EvPress] [EvPress; EvRender; EvPress]
           (VScrollView 7) empty_world).
  repeat (constructor; [first [by left | by right]|]). constructor.
Defined.

(** X3: no sequence of renders, presses and ref writes throws, and the
    scroll calls it makes are bounded by its presses: the trace only grows,
    by at most one call per press, and every added call has vertical offset
    450 and [animated] true.  Renders and ref writes never scroll. *)
Theorem session_scrolls_bounded_by_presses (evs : list Event) (w : World) :
  ∃ shown w' extra,
    session evs None w = Ok shown w'
    ∧ scrolls w' = scrolls w ++ extra
    ∧ (length extra ≤ press_count evs)%nat
    ∧ Forall (λ c, options c = {| y := 450; animated := true |}) extra.
Proof.
  destruct (session_inv evs None w I)
    as (s & w' & extra & Hrun & _ & Htr & Hlen & Hall & _).
  by exists s, w', extra.
Qed.

(** X4: a sequence of renders, presses and ref writes touches no ref object
    but the screen's own: the ref in the hook slot, once there, stays the
    same object, and apart from that one ref the heap at the end is the heap
    at the start. *)
Theorem session_writes_only_own_ref (evs : list Event) (w : World) :
  ∃ shown w',
    session evs None w = Ok shown w'
    ∧ (hook w = None ∨ hook w' = hook w)
    ∧ match hook w' with
      | Some r => delete r (heap w') = delete r (heap w)
      | None => heap w' = heap w
      end.
Proof.
  destruct (session_inv evs None w I)
    as (s & w' & extra & Hrun & _ & _ & _ & _ & Hk & Hf).
  by exists s, w'.
Qed.

(** X5: a render never scrolls and never overwrites a ref object.  A
    re-render returns the world as it was; the first render adds one ref
    object, at an address that held none, with [current] set to [null]. *)
Theorem render_keeps_heap_and_trace (w : World) :
  ∃ t w',
    IndexTsx.HomeScreen w = Ok t w'
    ∧ scrolls w' = scrolls w
    ∧ heap w ⊆ heap w'
    ∧ match hook w with
      | Some _ => w' = w
      | None =>
          ∃ r, hook w' = Some r
               ∧ heap w !! r = None
               ∧ heap w' = <[r := VNull]> (heap w)
      end.
Proof.
  exists (screen_tree (render_ref w)), (render_world w).
  split; [apply HomeScreen_run|]. split; [apply render_world_scrolls|].
  destruct (hook w) as [r|] eqn:Hr.
  - destruct (render_ref_mounted w r Hr) as [_ ->]. done.
  - destruct (render_world_fresh w Hr) as [Hnone Hheap].
    split; [rewrite Hheap; by apply insert_subseteq|].
    exists (render_ref w). split; [apply render_world_hook|done].
Qed.

(** X6: on every first render (empty hook slot), a press that comes before
    the framework has stored the scroll view in the ref does nothing: the
    ref still holds the [null] of [useRef(null)], the press returns normally
    and the scroll trace is the one from before the render. *)
Theorem press_right_after_first_render (w : World) :
  hook w = None →
  ∃ t w' r,
    session [EvRender; EvPress] None w = Ok (Some t) w'
    ∧ hook w' = Some r
    ∧ heap w' !! r = Some VNull
    ∧ scrolls w' = scrolls w.
Proof.
  intros Hr. destruct (render_world_fresh w Hr) as [_ Hheap].
  exists (screen_tree (render_ref w)), (render_world w), (render_ref w).
  assert (heap (render_world w) !! render_ref w = Some VNull) as Hcur.
  { rewrite Hheap. apply lookup_insert_eq. }
  split.
  - simpl. rewrite !run_mbind, HomeScreen_run, run_mret.
    simpl. rewrite !run_mbind, screen_tree_press.
    rewrite handleViewWork_nullish; [done|]. rewrite Hcur. by left.
  - split; [apply render_world_hook|]. split; [done|apply render_world_scrolls].
Qed.

(** X6 at the empty world. *)
Lemma press_right_after_first_render_witness :
  ∃ t w' r,
    session [EvRender; EvPress] None empty_world = Ok (Some t) w'
    ∧ hook w' = Some r
    ∧ heap w' !! r = Some VNull
    ∧ scrolls w' = scrolls empty_world.
Proof. apply (press_right_after_first_render empty_world). reflexivity. Defined.

Lemma shown_card_element (p : ProjectData) :
  shown_project (card_element p) = Some p.
Proof. by destruct p. Qed.

Lemma texts_cards (ps : list ProjectData) :
  flat_map texts (map card_element ps) = flat_map card_texts ps.
Proof.
  induction ps as [|p ps IH]; [done|].
  change (card_texts p ++ flat_map texts (map card_element ps)
          = card_texts p ++ flat_map card_texts ps).
  by rewrite IH.
Qed.

Lemma keys_cards (ps : list ProjectData) :
  map element_key (map card_element ps) = Some <$> map id ps.
Proof. induction ps as [|p ps IH]; [done|]. simpl. by rewrite IH. Qed.

(** X7: rendering loses nothing of a project list.  For every list of
    records (any ids, duplicates included, any strings, the empty string
    included), reading key and texts back off the cards of the Projects
    section gives the list itself, record for record, in the same order. *)
Theorem cards_read_back_to_records (ps : list ProjectData) (w : World) :
  ∃ t,
    IndexTsx.ProjectsSection ps w = Ok t w
    ∧ map shown_project (composites CProjectCard t) = map Some ps.
Proof.
  exists (projects_section_tree ps).
  split; [apply ProjectsSection_run|].
  rewrite ProjectsSection_cards, map_map.
  apply map_ext. intros p. apply shown_card_element.
Qed.

(** X8: the Projects section always shows its heading and its introduction,
    also for an empty list, and nothing of its own after them: its texts are
    the two texts of the empty section (the first is the heading Projects)
    followed by title, description and technology tag of each record, in
    list order. *)
Theorem section_texts_are_heading_then_cards (ps : list ProjectData) (w : World) :
  ∃ t t0,
    IndexTsx.ProjectsSection ps w = Ok t w
    ∧ IndexTsx.ProjectsSection [] w = Ok t0 w
    ∧ texts t = texts t0 ++ flat_map card_texts ps
    ∧ length (texts t0) = 2%nat
    ∧ head (texts t0) = Some "Projects".
Proof.
  exists (projects_section_tree ps), (projects_section_tree []).
  split; [apply ProjectsSection_run|]. split; [apply ProjectsSection_run|].
  split; [|done].
  unfold projects_section_tree, IndexTsx.ProjectsSection.
  rewrite !run_mbind, !cards_run.
  simpl. by rewrite app_nil_r, texts_cards.
Qed.

(** X9: the keys React sees are exactly the ids: for every list of records
    the keys of the cards are the ids in list order, so the cards of a
    section have pairwise distinct keys exactly when the records have
    pairwise distinct ids.  The section neither removes nor renames
    duplicates. *)
Theorem card_keys_unique_iff_ids_unique (ps : list ProjectData) (w : World) :
  ∃ t,
    IndexTsx.ProjectsSection ps w = Ok t w
    ∧ map element_key (composites CProjectCard t) = map Some (map id ps)
    ∧ (NoDup (map element_key (composites CProjectCard t))
       ↔ NoDup (map id ps)).
Proof.
  exists (projects_section_tree ps).
  split; [apply ProjectsSection_run|].
  rewrite ProjectsSection_cards, keys_cards.
  split; [done|]. apply (NoDup_fmap Some).
Qed.
